(** * Internly backend: the route handlers and the application object

    A shallow embedding of [backend/app/api/routes.py] and
    [backend/app/main.py].

    The handlers are pass-through code around one external collaborator,
    the database client [supabase].  They are embedded in a small state and
    exception monad over a [World] that holds the application object and the
    state of the external database; the client itself is a parameter of
    every handler, so that each statement about a handler holds for every
    client. *)

From Stdlib Require Import ZArith String List Bool Lia SpecFloat.
From stdpp Require Import base option list strings gmap.

Local Open Scope Z_scope.

#[local] Set Warnings "-register-all".

(** ** Python values *)

(** The JSON-shaped Python values that travel through the handlers: what
    the framework parses a request body into and what the client's rows are
    made of.  A [dict] keeps its items in insertion order, as Python
    does. *)
Inductive value : Type :=
| VNone
| VBool (b : bool)
| VInt (n : Z)
| VFloat (x : spec_float)
| VStr (s : string)
| VList (items : list value)
| VDict (items : list (string * value)).

Abbreviation dict := (list (string * value)).

(** [d.get(key)] on the items of a dict. *)
Fixpoint dict_get (key : string) (d : dict) : option value :=
  match d with
  | [] => None
  | (k, v) :: rest => if String.eqb k key then Some v else dict_get key rest
  end.

(** [len(l)]: a Python [int]. *)
Definition len {A : Type} (l : list A) : Z := Z.of_nat (length l).

(** [sub in s] on strings. *)
Fixpoint contains (sub s : string) : bool :=
  String.prefix sub s ||
  match s with
  | EmptyString => false
  | String _ rest => contains sub rest
  end.

(** ** Exceptions *)

(** An instance of Python's [Exception] as the [except Exception as e]
    clauses of the handlers see it: its class name and what [str(e)]
    gives. *)
Record pyexn : Type := mk_pyexn {
  exn_class : string;
  exn_message : string
}.

Definition str (e : pyexn) : string := exn_message e.

(** [fastapi.HTTPException(status_code=..., detail=...)]. *)
Record HTTPException : Type := mk_HTTPException {
  status_code : Z;
  detail : string
}.

(** ** The application object of main.py *)

(** The keyword arguments given to [CORSMiddleware]. *)
Record CORSMiddleware : Type := mk_CORSMiddleware {
  allow_origins : list string;
  allow_credentials : bool;
  allow_methods : list string;
  allow_headers : list string
}.

(** A registered route: HTTP method, path and the name of its endpoint
    function. *)
Record APIRoute : Type := mk_APIRoute {
  route_method : string;
  route_path : string;
  route_endpoint : string
}.

Record FastAPI : Type := mk_FastAPI {
  title : string;
  user_middleware : list CORSMiddleware;
  routes : list APIRoute
}.

Definition new_FastAPI (t : string) : FastAPI :=
  {| title := t; user_middleware := []; routes := [] |}.

(** [app.add_middleware(...)] puts the middleware in front of the stack. *)
Definition add_middleware (m : CORSMiddleware) (a : FastAPI) : FastAPI :=
  {| title := title a;
     user_middleware := m :: user_middleware a;
     routes := routes a |}.

(** [app.include_router(r)] appends the router's routes. *)
Definition include_router (r : list APIRoute) (a : FastAPI) : FastAPI :=
  {| title := title a;
     user_middleware := user_middleware a;
     routes := routes a ++ r |}.

(** How the middleware reads its lists: ["*"] stands for everything. *)
Definition wildcard (l : list string) : bool := existsb (String.eqb "*") l.

Definition allow_all_origins (c : CORSMiddleware) : bool :=
  wildcard (allow_origins c).

Definition allow_all_methods (c : CORSMiddleware) : bool :=
  wildcard (allow_methods c).

Definition allow_all_headers (c : CORSMiddleware) : bool :=
  wildcard (allow_headers c).

Definition is_allowed_origin (c : CORSMiddleware) (origin : string) : bool :=
  allow_all_origins c || existsb (String.eqb origin) (allow_origins c).

(** ** The database client interface *)

(** What the handlers build with [supabase.table(t).select(cols)] and
    [supabase.table(t).insert(record)] before calling [.execute()]. *)
Inductive query : Type :=
| Select (table_name : string) (columns : string)
| Insert (table_name : string) (record : dict).

(** The object [.execute()] returns; the handlers read its [.data]. *)
Record APIResponse : Type := mk_APIResponse {
  data : list value
}.

Record TableRef : Type := mk_TableRef { table_ref_name : string }.

Definition table (name : string) : TableRef := mk_TableRef name.
Definition select (t : TableRef) (columns : string) : query :=
  Select (table_ref_name t) columns.
Definition insert (t : TableRef) (record : dict) : query :=
  Insert (table_ref_name t) record.

(** ** Computations that may raise *)

Inductive outcome (E A : Type) : Type :=
| Return (a : A)
| Raise (e : E).

Arguments Return {E A} a.
Arguments Raise {E A} e.

Section Handlers.

(** The state of the external database, and the client's [.execute()]:
    it answers a query with a response or raises, and leaves the external
    database in some state either way. *)
Context {Db : Type}.
Variable execute_query : query -> Db -> outcome pyexn APIResponse * Db.

(** Everything a request can see: the application object and the external
    database. *)
Record World : Type := mk_World {
  app_state : FastAPI;
  database : Db
}.

Definition M (E A : Type) : Type := World -> outcome E A * World.

Definition ret {E A : Type} (a : A) : M E A := fun w => (Return a, w).

Definition raise {E A : Type} (e : E) : M E A := fun w => (Raise e, w).

Definition bind {E A B : Type} (m : M E A) (k : A -> M E B) : M E B :=
  fun w =>
    match m w with
    | (Return a, w') => k a w'
    | (Raise e, w') => (Raise e, w')
    end.

(** [try: body  except Exception as e: handler(e)]. *)
Definition try_except {E E' A : Type}
    (body : M E A) (handler : E -> M E' A) : M E' A :=
  fun w =>
    match body w with
    | (Return a, w') => (Return a, w')
    | (Raise e, w') => handler e w'
    end.

(** [q.execute()]: the only access to the external database. *)
Definition execute (q : query) : M pyexn APIResponse :=
  fun w =>
    let (o, db') := execute_query q (database w) in
    (o, {| app_state := app_state w; database := db' |}).

Notation "'let!' x ':=' m 'in' k" := (bind m (fun x => k))
  (at level 10, x name, m at level 200, k at level 200).

(** *** routes.py *)

Definition root : M HTTPException value :=
  ret (VDict [("message", VStr "Backend connected successfully!")]).

Definition get_test_records : M HTTPException value :=
  try_except
    (let! data_ := execute (select (table "test_records") "*") in
     ret (VDict [("success", VBool true);
                 ("data", VList (data data_));
                 ("count", VInt (len (data data_)))]))
    (fun e =>
       raise {| status_code := 500;
                detail := "Database error: " +:+ str e |}).

Definition add_test_record (record : dict) : M HTTPException value :=
  try_except
    (let! response := execute (insert (table "test_records") record) in
     ret (VDict [("success", VBool true);
                 ("data", VList (data response))]))
    (fun e =>
       raise {| status_code := 500;
                detail := "Database error: " +:+ str e |}).

(** *** The requests the router serves *)

Inductive request : Type :=
| GET_root
| GET_test
| POST_test (record : dict).

Definition serve (r : request) : M HTTPException value :=
  match r with
  | GET_root => root
  | GET_test => get_test_records
  | POST_test record => add_test_record record
  end.

End Handlers.

Arguments World Db : clear implicits.
Arguments mk_World {Db} app_state database.

(** The routes the decorators of routes.py register, in order. *)
Definition router : list APIRoute :=
  [ {| route_method := "GET"; route_path := "/";
       route_endpoint := "root" |};
    {| route_method := "GET"; route_path := "/test";
       route_endpoint := "get_test_records" |};
    {| route_method := "POST"; route_path := "/test";
       route_endpoint := "add_test_record" |} ].

(** *** main.py *)

Definition app : FastAPI :=
  include_router router
    (add_middleware
       {| allow_origins := ["http://localhost:3000"];
          allow_credentials := true;
          allow_methods := ["*"];
          allow_headers := ["*"] |}
       (new_FastAPI "Internly API")).

(** ** A model of the database service *)

Module Supabase.

(** Modelled from the spec: the managed database service behind the client
    object [supabase] of [app/services/database.py], which is not among
    the sources.  The spec gives it table-select and table-insert
    operations that return a result with a [.data] field: a select
    "requests all rows" of the collection, an insert stores the mapping
    "verbatim" and "returns the inserted row(s)", and either call may
    raise.  A collection is the list of its rows in insertion order; the
    failures the service will meet (connectivity and the like) are a
    schedule it consumes, one entry per call. *)
Record Database : Type := mk_Database {
  tables : gmap string (list value);
  faults : list (option pyexn)
}.

Definition rows (t : string) (db : Database) : list value :=
  default [] (tables db !! t).

Definition next_fault (db : Database) : option pyexn * Database :=
  match faults db with
  | [] => (None, db)
  | f :: rest => (f, {| tables := tables db; faults := rest |})
  end.

(** Modelled from the spec: [.execute()] of the client, as described
    above. *)
Definition execute_query (q : query) (db : Database)
    : outcome pyexn APIResponse * Database :=
  match next_fault db with
  | (Some e, db') => (Raise e, db')
  | (None, db') =>
      match q with
      | Select t _ => (Return {| data := rows t db' |}, db')
      | Insert t record =>
          (Return {| data := [VDict record] |},
           {| tables := <[t := rows t db' ++ [VDict record]]> (tables db');
              faults := faults db' |})
      end
  end.

End Supabase.

(** A client that also records, in order, every query it is given. *)
Definition recording {Db : Type}
    (execute_query : query -> Db -> outcome pyexn APIResponse * Db)
    (q : query) (st : list query * Db)
    : outcome pyexn APIResponse * (list query * Db) :=
  let (o, db') := execute_query q (snd st) in
  (o, (fst st ++ [q], db')).

(** ** Sample worlds *)

Definition row_a : dict := [("name", VStr "Ada"); ("year", VInt 1)].
Definition row_b : dict := [("name", VStr "Bob")].

(** One stored row, no failure ahead. *)
Definition world_ok : World Supabase.Database :=
  mk_World app
    {| Supabase.tables := {["test_records" := [VDict row_a]]};
       Supabase.faults := [] |}.

(** The next call to the service times out. *)
Definition timed_out : pyexn :=
  {| exn_class := "ConnectTimeout"; exn_message := "timed out" |}.

Definition world_down : World Supabase.Database :=
  mk_World app
    {| Supabase.tables := {["test_records" := [VDict row_a]]};
       Supabase.faults := [Some timed_out] |}.

(** Same rows as [world_ok] behind a different application object and with
    other failures further ahead. *)
Definition world_ok' : World Supabase.Database :=
  mk_World (new_FastAPI "other")
    {| Supabase.tables := {["test_records" := [VDict row_a]]};
       Supabase.faults := [None; None; Some timed_out] |}.

(** The service turns the next call down; the message is that of
    [timed_out], the class is another. *)
Definition turned_down : pyexn :=
  {| exn_class := "APIError"; exn_message := "timed out" |}.

Definition world_refusing : World Supabase.Database :=
  mk_World app
    {| Supabase.tables := ∅;
       Supabase.faults := [Some turned_down] |}.

(** ** Requests served one after another *)

(** The client calls routes.py writes down for each request: none in
    [root], one select in [get_test_records], one insert in
    [add_test_record]. *)
Definition queries_of (r : request) : list query :=
  match r with
  | GET_root => []
  | GET_test => [Select "test_records" "*"]
  | POST_test record => [Insert "test_records" record]
  end.

(** The handlers run in the order the requests come in; each one starts in
    the world the one before it left. *)
Fixpoint serve_all {Db : Type}
    (execute_query : query -> Db -> outcome pyexn APIResponse * Db)
    (rs : list request) (w : World Db)
    : list (outcome HTTPException value) * World Db :=
  match rs with
  | [] => ([], w)
  | r :: rest =>
      let (o, w1) := serve execute_query r w in
      let (os, w2) := serve_all execute_query rest w1 in
      (o :: os, w2)
  end.


(** ** How the handlers run *)

Section Runs.

Context {Db : Type}.
Variable execute_query : query -> Db -> outcome pyexn APIResponse * Db.

Lemma get_test_records_run (w : World Db) :
  get_test_records execute_query w =
  match execute_query (Select "test_records" "*") (database w) with
  | (Return r, db') =>
      (Return (VDict [("success", VBool true);
                      ("data", VList (data r));
                      ("count", VInt (len (data r)))]),
       mk_World (app_state w) db')
  | (Raise e, db') =>
      (Raise {| status_code := 500;
                detail := "Database error: " +:+ str e |},
       mk_World (app_state w) db')
  end.
Proof.
  unfold get_test_records, try_except, bind, execute, ret, raise.
  cbn [select table table_ref_name].
  destruct (execute_query _ _) as [[r | e] db']; reflexivity.
Qed.

Lemma add_test_record_run (record : dict) (w : World Db) :
  add_test_record execute_query record w =
  match execute_query (Insert "test_records" record) (database w) with
  | (Return r, db') =>
      (Return (VDict [("success", VBool true);
                      ("data", VList (data r))]),
       mk_World (app_state w) db')
  | (Raise e, db') =>
      (Raise {| status_code := 500;
                detail := "Database error: " +:+ str e |},
       mk_World (app_state w) db')
  end.
Proof.
  unfold add_test_record, try_except, bind, execute, ret, raise.
  cbn [insert table table_ref_name].
  destruct (execute_query _ _) as [[r | e] db']; reflexivity.
Qed.

End Runs.

(** ** Substrings *)

Lemma append_cons (c : Ascii.ascii) (s t : string) :
  String c s +:+ t = String c (s +:+ t).
Proof. reflexivity. Qed.

Lemma prefix_append (s t : string) : String.prefix s (s +:+ t) = true.
Proof.
  induction s as [| c s IH].
  - now destruct t.
  - rewrite append_cons. simpl.
    destruct (Ascii.ascii_dec c c) as [_ | Hne]; [exact IH | now destruct Hne].
Qed.

Lemma prefix_contains (sub s : string) :
  String.prefix sub s = true -> contains sub s = true.
Proof. intros H. destruct s; cbn [contains]; rewrite H; reflexivity. Qed.

Lemma contains_prefix (sub post : string) : contains sub (sub +:+ post) = true.
Proof. apply prefix_contains, prefix_append. Qed.

Lemma contains_suffix (pre s sub : string) :
  contains sub s = true -> contains sub (pre +:+ s) = true.
Proof.
  intros H. induction pre as [| c pre IH].
  - exact H.
  - rewrite append_cons. cbn [contains]. rewrite IH. apply orb_true_r.
Qed.

Lemma contains_refl (s : string) : contains s s = true.
Proof.
  assert (E : s = s +:+ "").
  { induction s as [| c s IH]; [reflexivity |].
    rewrite append_cons, <- IH. reflexivity. }
  rewrite E at 2. apply contains_prefix.
Qed.

(** ** GET /test and POST /test: responses *)

(** C1. Whatever rows the client's select returns, GET /test answers
    [{"success": True, "data": rows, "count": len(rows)}] with exactly those
    rows; and every response GET /test returns has that shape, its count
    being the length of its data. *)
Theorem get_test_records_response :
  forall (Db : Type)
         (execute_query : query -> Db -> outcome pyexn APIResponse * Db)
         (w : World Db),
    (forall rows db',
        execute_query (Select "test_records" "*") (database w)
          = (Return {| data := rows |}, db') ->
        get_test_records execute_query w
          = (Return (VDict [("success", VBool true);
                            ("data", VList rows);
                            ("count", VInt (len rows))]),
             mk_World (app_state w) db'))
    /\
    (forall body w',
        get_test_records execute_query w = (Return body, w') ->
        exists (success : bool) (rows : list value) (count : Z),
          body = VDict [("success", VBool success);
                        ("data", VList rows);
                        ("count", VInt count)]
          /\ fst (execute_query (Select "test_records" "*") (database w))
               = Return {| data := rows |}
          /\ count = len rows).
Proof.
  intros Db execute_query w. split.
  - intros rows db' Hsel. rewrite get_test_records_run, Hsel. reflexivity.
  - intros body w' Hrun. rewrite get_test_records_run in Hrun.
    destruct (execute_query _ _) as [[[rows] | e] db'] eqn:Hsel.
    + inversion Hrun; subst. exists true, rows, (len rows). auto.
    + discriminate Hrun.
Qed.

Lemma get_test_records_response_witness :
  get_test_records Supabase.execute_query world_ok
    = (Return (VDict [("success", VBool true);
                      ("data", VList [VDict row_a]);
                      ("count", VInt 1)]),
       world_ok)
  /\ exists (success : bool) (rows : list value) (count : Z),
      VDict [("success", VBool true);
             ("data", VList [VDict row_a]);
             ("count", VInt 1)]
        = VDict [("success", VBool success);
                 ("data", VList rows);
                 ("count", VInt count)]
      /\ fst (Supabase.execute_query (Select "test_records" "*")
                (database world_ok))
           = Return {| data := rows |}
      /\ count = len rows.
Proof.
  split.
  - apply (proj1 (get_test_records_response _ Supabase.execute_query world_ok)
             [VDict row_a] (database world_ok)).
    reflexivity.
  - apply (proj2 (get_test_records_response _ Supabase.execute_query world_ok)
             _ world_ok).
    reflexivity.
Defined.

(** C8. A response that GET /test or POST /test returns, rather than
    raises, carries [success] equal to [True]. *)
Theorem success_is_True :
  forall (Db : Type)
         (execute_query : query -> Db -> outcome pyexn APIResponse * Db)
         (w w' : World Db) (body : value),
    (get_test_records execute_query w = (Return body, w') ->
     exists d, body = VDict d /\ dict_get "success" d = Some (VBool true))
    /\
    (forall record,
        add_test_record execute_query record w = (Return body, w') ->
        exists d, body = VDict d /\ dict_get "success" d = Some (VBool true)).
Proof.
  intros Db execute_query w w' body. split; [| intros record];
    intros Hrun;
    [rewrite get_test_records_run in Hrun | rewrite add_test_record_run in Hrun];
    destruct (execute_query _ _) as [[r | e] db']; try discriminate Hrun;
    injection Hrun as <- _; eexists; split; reflexivity.
Qed.

Lemma success_is_True_witness :
  (exists d,
      VDict [("success", VBool true);
             ("data", VList [VDict row_a]);
             ("count", VInt 1)] = VDict d
      /\ dict_get "success" d = Some (VBool true))
  /\
  (exists d,
      VDict [("success", VBool true); ("data", VList [VDict row_b])] = VDict d
      /\ dict_get "success" d = Some (VBool true)).
Proof.
  split.
  - apply (proj1 (success_is_True _ Supabase.execute_query world_ok world_ok _)).
    reflexivity.
  - apply (proj2 (success_is_True _ Supabase.execute_query world_ok
                    (snd (add_test_record Supabase.execute_query row_b world_ok))
                    _) row_b).
    reflexivity.
Defined.

(** ** GET /test and POST /test: failures *)

(** C9. When the client's call raises [e], the handler raises an
    [HTTPException] whose status code is 500 and whose detail is exactly
    ["Database error: "] followed by [str(e)]. *)
Theorem database_error_detail :
  forall (Db : Type)
         (execute_query : query -> Db -> outcome pyexn APIResponse * Db)
         (w : World Db) (e : pyexn) (db' : Db),
    (execute_query (Select "test_records" "*") (database w) = (Raise e, db') ->
     get_test_records execute_query w
       = (Raise {| status_code := 500;
                   detail := "Database error: " +:+ str e |},
          mk_World (app_state w) db'))
    /\
    (forall record,
        execute_query (Insert "test_records" record) (database w)
          = (Raise e, db') ->
        add_test_record execute_query record w
          = (Raise {| status_code := 500;
                      detail := "Database error: " +:+ str e |},
             mk_World (app_state w) db')).
Proof.
  intros Db execute_query w e db'. split.
  - intros Hq. now rewrite get_test_records_run, Hq.
  - intros record Hq. now rewrite add_test_record_run, Hq.
Qed.

Lemma database_error_detail_witness :
  get_test_records Supabase.execute_query world_down
    = (Raise {| status_code := 500; detail := "Database error: timed out" |},
       world_ok)
  /\
  add_test_record Supabase.execute_query row_b world_down
    = (Raise {| status_code := 500; detail := "Database error: timed out" |},
       world_ok).
Proof.
  split.
  - apply (proj1 (database_error_detail _ Supabase.execute_query world_down
                    timed_out (database world_ok))).
    reflexivity.
  - apply (proj2 (database_error_detail _ Supabase.execute_query world_down
                    timed_out (database world_ok)) row_b).
    reflexivity.
Defined.

Section Failures.

Context {Db : Type}.
Variable execute_query : query -> Db -> outcome pyexn APIResponse * Db.

Lemma detail_contains (e : pyexn) :
  contains "Database error:" ("Database error: " +:+ str e) = true
  /\ contains (str e) ("Database error: " +:+ str e) = true.
Proof.
  split.
  - change ("Database error: " +:+ str e)
      with ("Database error:" +:+ (" " +:+ str e)).
    apply contains_prefix.
  - apply contains_suffix, contains_refl.
Qed.

(** A handler that makes query [q] and translates a raise as routes.py
    does raises a 500 with the message inside, and only then. *)
Lemma raise_translated (q : query) (h : M HTTPException value)
    (ok : APIResponse -> value) :
  (forall w,
      h w = match execute_query q (database w) with
            | (Return r, db') => (Return (ok r), mk_World (app_state w) db')
            | (Raise e, db') =>
                (Raise {| status_code := 500;
                          detail := "Database error: " +:+ str e |},
                 mk_World (app_state w) db')
            end) ->
  forall w,
    (forall e, fst (execute_query q (database w)) = Raise e ->
       exists err,
         fst (h w) = Raise err
         /\ status_code err = 500
         /\ contains "Database error:" (detail err) = true
         /\ contains (str e) (detail err) = true)
    /\
    ((exists err, fst (h w) = Raise err)
     <-> (exists e, fst (execute_query q (database w)) = Raise e)).
Proof.
  intros Hrun w. rewrite Hrun.
  case_eq (execute_query q (database w)). intros [r | e] db' _; cbn.
  - split.
    + intros e He. discriminate He.
    + split; intros [x Hx]; discriminate Hx.
  - split.
    + intros e0 He0. injection He0 as ->.
      eexists. split; [reflexivity |]. split; [reflexivity |].
      apply detail_contains.
    + split; intros _; eauto.
Qed.

End Failures.

(** C2. When the client's select (GET /test) or insert (POST /test) raises,
    the handler raises an HTTP error with status code 500 whose detail
    contains ["Database error:"] and the message of the exception; and the
    handler raises exactly when the client's call does. *)
Theorem database_failure_gives_500 :
  forall (Db : Type)
         (execute_query : query -> Db -> outcome pyexn APIResponse * Db)
         (w : World Db),
    ((forall e,
         fst (execute_query (Select "test_records" "*") (database w))
           = Raise e ->
         exists err,
           fst (get_test_records execute_query w) = Raise err
           /\ status_code err = 500
           /\ contains "Database error:" (detail err) = true
           /\ contains (str e) (detail err) = true)
     /\
     ((exists err, fst (get_test_records execute_query w) = Raise err)
      <-> (exists e,
              fst (execute_query (Select "test_records" "*") (database w))
                = Raise e)))
    /\
    (forall record,
        (forall e,
            fst (execute_query (Insert "test_records" record) (database w))
              = Raise e ->
            exists err,
              fst (add_test_record execute_query record w) = Raise err
              /\ status_code err = 500
              /\ contains "Database error:" (detail err) = true
              /\ contains (str e) (detail err) = true)
        /\
        ((exists err, fst (add_test_record execute_query record w) = Raise err)
         <-> (exists e,
                 fst (execute_query (Insert "test_records" record)
                        (database w)) = Raise e))).
Proof.
  intros Db execute_query w. split; [| intros record].
  - eapply raise_translated. apply get_test_records_run.
  - eapply raise_translated. apply add_test_record_run.
Qed.

Lemma database_failure_gives_500_witness :
  (exists err,
      fst (get_test_records Supabase.execute_query world_down) = Raise err
      /\ status_code err = 500
      /\ contains "Database error:" (detail err) = true
      /\ contains (str timed_out) (detail err) = true)
  /\
  (exists e,
      fst (Supabase.execute_query (Insert "test_records" row_b)
             (database world_down)) = Raise e).
Proof.
  pose proof (database_failure_gives_500 _ Supabase.execute_query world_down)
    as [Hget Hpost].
  split.
  - apply (proj1 Hget timed_out). reflexivity.
  - apply (proj1 (proj2 (Hpost row_b))).
    eexists. reflexivity.
Defined.

(** ** POST /test: the request body *)

(** C3. POST /test makes one client call, the insert of the request body,
    unchanged, into ["test_records"]: its outcome and its effect on the
    database are those of that call, a client that records its queries
    records that one and no other, and when the call returns, the response
    is [{"success": True, "data": rows}] with the rows the insert
    reported. *)
Theorem add_test_record_inserts_body :
  forall (Db : Type)
         (execute_query : query -> Db -> outcome pyexn APIResponse * Db)
         (record : dict) (w : World Db),
    add_test_record execute_query record w
      = (match fst (execute_query (Insert "test_records" record) (database w))
         with
         | Return r =>
             Return (VDict [("success", VBool true); ("data", VList (data r))])
         | Raise e =>
             Raise {| status_code := 500;
                      detail := "Database error: " +:+ str e |}
         end,
         mk_World (app_state w)
           (snd (execute_query (Insert "test_records" record) (database w))))
    /\
    forall log : list query,
      fst (database
             (snd (add_test_record (recording execute_query) record
                     (mk_World (app_state w) (log, database w)))))
        = log ++ [Insert "test_records" record].
Proof.
  intros Db execute_query record w. split.
  - rewrite add_test_record_run.
    destruct (execute_query _ _) as [[r | e] db']; reflexivity.
  - intros log. rewrite add_test_record_run. unfold recording. cbn.
    destruct (execute_query _ _) as [[r | e] db']; reflexivity.
Qed.

(** ** GET / *)

(** C5. GET / returns [{"message": "Backend connected successfully!"}] in
    every world, reads nothing but the world it leaves as it found it, and
    never raises. *)
Theorem root_message :
  forall (Db : Type) (w : World Db),
    root w
      = (Return (VDict [("message", VStr "Backend connected successfully!")]),
         w).
Proof. intros Db w. reflexivity. Qed.

(** ** Determinism *)

(** C10. The response of GET /test is a function of what the client's
    select answers, and the response of POST /test of the request body and
    what the client's insert answers: two runs, in any two worlds and with
    any two clients, that get the same answer give the same response. *)
Theorem handlers_deterministic :
  forall (Db1 Db2 : Type)
         (execute1 : query -> Db1 -> outcome pyexn APIResponse * Db1)
         (execute2 : query -> Db2 -> outcome pyexn APIResponse * Db2)
         (w1 : World Db1) (w2 : World Db2),
    (fst (execute1 (Select "test_records" "*") (database w1))
       = fst (execute2 (Select "test_records" "*") (database w2)) ->
     fst (get_test_records execute1 w1) = fst (get_test_records execute2 w2))
    /\
    (forall record,
        fst (execute1 (Insert "test_records" record) (database w1))
          = fst (execute2 (Insert "test_records" record) (database w2)) ->
        fst (add_test_record execute1 record w1)
          = fst (add_test_record execute2 record w2)).
Proof.
  intros Db1 Db2 execute1 execute2 w1 w2. split; [| intros record].
  - rewrite !get_test_records_run.
    destruct (execute1 _ _) as [o1 d1], (execute2 _ _) as [o2 d2]; cbn.
    intros ->. now destruct o2.
  - rewrite !add_test_record_run.
    destruct (execute1 _ _) as [o1 d1], (execute2 _ _) as [o2 d2]; cbn.
    intros ->. now destruct o2.
Qed.

Lemma handlers_deterministic_witness :
  fst (get_test_records Supabase.execute_query world_ok)
    = fst (get_test_records Supabase.execute_query world_ok')
  /\
  fst (add_test_record Supabase.execute_query row_b world_ok)
    = fst (add_test_record Supabase.execute_query row_b world_ok').
Proof.
  split.
  - apply (proj1 (handlers_deterministic _ _ Supabase.execute_query
                    Supabase.execute_query world_ok world_ok')).
    reflexivity.
  - apply (proj2 (handlers_deterministic _ _ Supabase.execute_query
                    Supabase.execute_query world_ok world_ok') row_b).
    reflexivity.
Defined.

(** ** Statelessness *)

(** C7. Serving a request, whether it returns or raises, leaves the
    application object as it was, and neither the response nor the effect on
    the external database depends on the application object: all a handler
    reads and writes goes through the client. *)
Theorem handlers_stateless :
  forall (Db : Type)
         (execute_query : query -> Db -> outcome pyexn APIResponse * Db)
         (r : request) (w : World Db),
    app_state (snd (serve execute_query r w)) = app_state w
    /\
    forall a' : FastAPI,
      serve execute_query r (mk_World a' (database w))
        = (fst (serve execute_query r w),
           mk_World a' (database (snd (serve execute_query r w)))).
Proof.
  intros Db execute_query r w. destruct r as [| | record]; cbn [serve].
  - split; [reflexivity | intros a'; reflexivity].
  - rewrite !get_test_records_run.
    split; [| intros a'; rewrite get_test_records_run; cbn [database] ];
      destruct (execute_query _ _) as [[resp | e] db']; reflexivity.
  - rewrite !add_test_record_run.
    split; [| intros a'; rewrite add_test_record_run; cbn [database] ];
      destruct (execute_query _ _) as [[resp | e] db']; reflexivity.
Qed.

(** ** Cross-origin configuration *)

(** C6. The application has one middleware, the CORS middleware, configured
    with the single origin ["http://localhost:3000"], so that an origin is
    allowed exactly when it is that one, with all methods and all headers
    allowed and credentials enabled. *)
Theorem cors_configuration :
  exists cors : CORSMiddleware,
    user_middleware app = [cors]
    /\ allow_origins cors = ["http://localhost:3000"]
    /\ (forall origin : string,
           is_allowed_origin cors origin = true
           <-> origin = "http://localhost:3000")
    /\ allow_methods cors = ["*"] /\ allow_all_methods cors = true
    /\ allow_headers cors = ["*"] /\ allow_all_headers cors = true
    /\ allow_credentials cors = true.
Proof.
  eexists. split; [reflexivity |]. cbn.
  repeat split; try reflexivity.
  - unfold is_allowed_origin. cbn. rewrite orb_false_r.
    intros H. now apply String.eqb_eq in H.
  - intros ->. reflexivity.
Qed.

(** ** POST /test then GET /test, on the modelled database *)

Lemma next_fault_tables (db db' : Supabase.Database) (f : option pyexn) :
  Supabase.next_fault db = (f, db') -> Supabase.tables db' = Supabase.tables db.
Proof.
  unfold Supabase.next_fault. destruct (Supabase.faults db) as [| f0 rest];
    intros H; inversion H; reflexivity.
Qed.

Lemma rows_tables (t : string) (db db' : Supabase.Database) :
  Supabase.tables db' = Supabase.tables db ->
  Supabase.rows t db' = Supabase.rows t db.
Proof. unfold Supabase.rows. now intros ->. Qed.

Lemma select_returns (t cols : string) (db db' : Supabase.Database)
    (r : APIResponse) :
  Supabase.execute_query (Select t cols) db = (Return r, db') ->
  data r = Supabase.rows t db /\ Supabase.tables db' = Supabase.tables db.
Proof.
  unfold Supabase.execute_query.
  destruct (Supabase.next_fault db) as [[e |] db0] eqn:Hf; intros H;
    inversion H; subst; cbn.
  pose proof (next_fault_tables _ _ _ Hf) as Ht.
  split; [now apply rows_tables | exact Ht].
Qed.

Lemma insert_returns (t : string) (record : dict)
    (db db' : Supabase.Database) (r : APIResponse) :
  Supabase.execute_query (Insert t record) db = (Return r, db') ->
  data r = [VDict record]
  /\ Supabase.rows t db' = Supabase.rows t db ++ [VDict record]
  /\ exists db0, Supabase.next_fault db = (None, db0).
Proof.
  unfold Supabase.execute_query.
  destruct (Supabase.next_fault db) as [[e |] db0] eqn:Hf; intros H;
    inversion H; subst; cbn.
  pose proof (next_fault_tables _ _ _ Hf) as Ht.
  split; [reflexivity |]. split; [| now exists db0].
  unfold Supabase.rows at 1. cbn. rewrite lookup_insert_eq. cbn.
  now rewrite (rows_tables t _ _ Ht).
Qed.

Lemma len_snoc {A : Type} (l : list A) (x : A) : len (l ++ [x]) = len l + 1.
Proof. unfold len. rewrite length_app. cbn. lia. Qed.

(** C4. On the modelled database: when POST /test of a record returns and
    the GET /test after it returns, the data of that GET contains the record,
    and its count is one more than the count of the GET /test that the world
    before the insert answers. *)
Theorem post_then_get :
  forall (record : dict) (w w1 w2 : World Supabase.Database)
         (posted got : value),
    add_test_record Supabase.execute_query record w = (Return posted, w1) ->
    get_test_records Supabase.execute_query w1 = (Return got, w2) ->
    exists (rows_before rows_after : list value)
           (w0 : World Supabase.Database),
      get_test_records Supabase.execute_query w
        = (Return (VDict [("success", VBool true);
                          ("data", VList rows_before);
                          ("count", VInt (len rows_before))]),
           w0)
      /\ got = VDict [("success", VBool true);
                      ("data", VList rows_after);
                      ("count", VInt (len rows_after))]
      /\ In (VDict record) rows_after
      /\ len rows_after = len rows_before + 1.
Proof.
  intros record w w1 w2 posted got Hpost Hget.
  rewrite add_test_record_run in Hpost.
  destruct (Supabase.execute_query (Insert _ _) _) as [[r | e] db1] eqn:Hins;
    [| discriminate Hpost].
  injection Hpost as _ <-.
  rewrite get_test_records_run in Hget. cbn [database] in Hget.
  destruct (Supabase.execute_query (Select _ _) db1) as [[r' | e] db2] eqn:Hsel;
    [| discriminate Hget].
  injection Hget as <- _.
  destruct (insert_returns _ _ _ _ _ Hins) as (_ & Hrows & db0 & Hf).
  destruct (select_returns _ _ _ _ _ Hsel) as [Hdata _].
  exists (Supabase.rows "test_records" (database w)), (data r'),
         (mk_World (app_state w) db0).
  split; [| split; [reflexivity | split]].
  - rewrite get_test_records_run. unfold Supabase.execute_query. rewrite Hf.
    rewrite (rows_tables _ _ _ (next_fault_tables _ _ _ Hf)). reflexivity.
  - rewrite Hdata, Hrows. apply in_or_app. right. now left.
  - rewrite Hdata, Hrows. apply len_snoc.
Qed.

Lemma post_then_get_witness :
  exists (rows_before rows_after : list value)
         (w0 : World Supabase.Database),
    get_test_records Supabase.execute_query world_ok
      = (Return (VDict [("success", VBool true);
                        ("data", VList rows_before);
                        ("count", VInt (len rows_before))]),
         w0)
    /\ VDict [("success", VBool true);
              ("data", VList [VDict row_a; VDict row_b]);
              ("count", VInt 2)]
       = VDict [("success", VBool true);
                ("data", VList rows_after);
                ("count", VInt (len rows_after))]
    /\ In (VDict row_b) rows_after
    /\ len rows_after = len rows_before + 1.
Proof.
  apply (post_then_get row_b world_ok
           (snd (add_test_record Supabase.execute_query row_b world_ok))
           (snd (add_test_record Supabase.execute_query row_b world_ok))
           (VDict [("success", VBool true); ("data", VList [VDict row_b])])).
  - reflexivity.
  - reflexivity.
Defined.

(** ** The client calls a request makes *)

Section Calls.

Context {Db : Type}.
Variable execute_query : query -> Db -> outcome pyexn APIResponse * Db.

(** Recording changes nothing but the record: the run of a request against
    the recording client is its run against the client, with the queries of
    the request added to the log. *)
Lemma serve_recording (r : request) (w : World (list query * Db)) :
  serve (recording execute_query) r w
  = (fst (serve execute_query r
            (mk_World (app_state w) (snd (database w)))),
     mk_World (app_state w)
       (fst (database w) ++ queries_of r,
        database (snd (serve execute_query r
                         (mk_World (app_state w) (snd (database w))))))).
Proof.
  destruct w as [a [log db]]. destruct r as [| | record]; cbn [serve].
  - cbn. now rewrite app_nil_r.
  - rewrite !get_test_records_run. unfold recording. cbn.
    destruct (execute_query _ db) as [[resp | e] db']; reflexivity.
  - rewrite !add_test_record_run. unfold recording. cbn.
    destruct (execute_query _ db) as [[resp | e] db']; reflexivity.
Qed.

Lemma serve_app_state (r : request) (w : World Db) :
  app_state (snd (serve execute_query r w)) = app_state w.
Proof.
  destruct r as [| | record]; cbn [serve].
  - reflexivity.
  - rewrite get_test_records_run.
    destruct (execute_query _ _) as [[resp | e] db']; reflexivity.
  - rewrite add_test_record_run.
    destruct (execute_query _ _) as [[resp | e] db']; reflexivity.
Qed.

End Calls.

(** X1. Whether it returns or raises, GET /test gives the client one query,
    the select of all columns of ["test_records"], and nothing else: it
    never inserts and never asks again after a failure.  GET / gives it
    none. *)
Theorem get_makes_one_select :
  forall (Db : Type)
         (execute_query : query -> Db -> outcome pyexn APIResponse * Db)
         (w : World Db) (log : list query),
    fst (database
           (snd (get_test_records (recording execute_query)
                   (mk_World (app_state w) (log, database w)))))
      = log ++ [Select "test_records" "*"]
    /\
    fst (database
           (snd (root (mk_World (app_state w) (log, database w)))))
      = log.
Proof.
  intros Db execute_query w log. split; [| reflexivity].
  change (get_test_records (recording execute_query))
    with (serve (recording execute_query) GET_test).
  rewrite serve_recording. reflexivity.
Qed.

(** X2. Over any sequence of requests, the queries the client receives are
    those of the requests, in order, one for each GET /test and POST /test
    and none for GET /; every request gets its response; and the
    application object is at the end what it was at the start. *)
Theorem serve_all_queries :
  forall (Db : Type)
         (execute_query : query -> Db -> outcome pyexn APIResponse * Db)
         (rs : list request) (w : World (list query * Db)),
    fst (database (snd (serve_all (recording execute_query) rs w)))
      = fst (database w) ++ flat_map queries_of rs
    /\ length (fst (serve_all (recording execute_query) rs w)) = length rs
    /\ app_state (snd (serve_all (recording execute_query) rs w))
       = app_state w.
Proof.
  intros Db execute_query rs. induction rs as [| r rest IH]; intros w.
  - cbn. now rewrite app_nil_r.
  - cbn [serve_all flat_map]. rewrite serve_recording.
    match goal with
    | |- context [serve_all _ rest ?w1] =>
        destruct (IH w1) as (Hlog & Hlen & Happ);
        destruct (serve_all (recording execute_query) rest w1) as [os w2]
    end.
    cbn in *. rewrite Hlog, Hlen, Happ, app_assoc. auto.
Qed.

(** ** What an error response tells *)

Lemma append_inj_l (p a b : string) : p +:+ a = p +:+ b -> a = b.
Proof.
  induction p as [| c p IH]; intros H.
  - exact H.
  - rewrite !append_cons in H. injection H as H. now apply IH.
Qed.

(** X3. Two failing requests, to either endpoint and against any clients,
    get the same error response exactly when the exceptions have the same
    [str]: the response carries the whole message and nothing else of the
    exception (not its class) nor of the request. *)
Theorem error_response_is_the_message :
  forall (Db1 Db2 : Type)
         (execute1 : query -> Db1 -> outcome pyexn APIResponse * Db1)
         (execute2 : query -> Db2 -> outcome pyexn APIResponse * Db2)
         (r1 r2 : request) (q1 q2 : query)
         (w1 : World Db1) (w2 : World Db2) (e1 e2 : pyexn),
    queries_of r1 = [q1] ->
    queries_of r2 = [q2] ->
    fst (execute1 q1 (database w1)) = Raise e1 ->
    fst (execute2 q2 (database w2)) = Raise e2 ->
    (fst (serve execute1 r1 w1) = fst (serve execute2 r2 w2)
     <-> str e1 = str e2).
Proof.
  intros Db1 Db2 execute1 execute2 r1 r2 q1 q2 w1 w2 e1 e2 Hq1 Hq2 H1 H2.
  assert (E1 : fst (serve execute1 r1 w1)
               = Raise {| status_code := 500;
                          detail := "Database error: " +:+ str e1 |}).
  { destruct r1 as [| | record]; cbn in Hq1; inversion Hq1; subst q1;
      cbn [serve];
      [rewrite get_test_records_run | rewrite add_test_record_run];
      destruct (execute1 _ _) as [o db']; cbn in H1; subst o; reflexivity. }
  assert (E2 : fst (serve execute2 r2 w2)
               = Raise {| status_code := 500;
                          detail := "Database error: " +:+ str e2 |}).
  { destruct r2 as [| | record]; cbn in Hq2; inversion Hq2; subst q2;
      cbn [serve];
      [rewrite get_test_records_run | rewrite add_test_record_run];
      destruct (execute2 _ _) as [o db']; cbn in H2; subst o; reflexivity. }
  rewrite E1, E2. split.
  - intros H. injection H as H. now apply append_inj_l in H.
  - now intros ->.
Qed.

Lemma error_response_is_the_message_witness :
  fst (serve Supabase.execute_query GET_test world_down)
    = fst (serve Supabase.execute_query (POST_test row_b) world_refusing).
Proof.
  apply (proj2 (error_response_is_the_message _ _
                  Supabase.execute_query Supabase.execute_query
                  GET_test (POST_test row_b)
                  (Select "test_records" "*") (Insert "test_records" row_b)
                  world_down world_refusing timed_out turned_down
                  eq_refl eq_refl eq_refl eq_refl)).
  reflexivity.
Defined.

(** ** The count of GET /test *)

(** X4. The count in a response of GET /test is never negative, and it is
    zero exactly when the data is the empty list: an empty collection is
    answered, not reported as an error. *)
Theorem count_of_rows :
  forall (Db : Type)
         (execute_query : query -> Db -> outcome pyexn APIResponse * Db)
         (w w' : World Db) (body : value),
    get_test_records execute_query w = (Return body, w') ->
    exists (d : dict) (rows : list value) (count : Z),
      body = VDict d
      /\ dict_get "data" d = Some (VList rows)
      /\ dict_get "count" d = Some (VInt count)
      /\ 0 <= count
      /\ (count = 0 <-> rows = []).
Proof.
  intros Db execute_query w w' body Hrun.
  rewrite get_test_records_run in Hrun.
  destruct (execute_query _ _) as [[[rows] | e] db']; [| discriminate Hrun].
  injection Hrun as <- _. cbn [data].
  eexists _, rows, (len rows). repeat split; unfold len in *.
  - lia.
  - destruct rows; [reflexivity | cbn in *; lia].
  - now intros ->.
Qed.

Lemma count_of_rows_witness :
  exists (d : dict) (rows : list value) (count : Z),
    VDict [("success", VBool true); ("data", VList []); ("count", VInt 0)]
      = VDict d
    /\ dict_get "data" d = Some (VList rows)
    /\ dict_get "count" d = Some (VInt count)
    /\ 0 <= count
    /\ (count = 0 <-> rows = []).
Proof.
  apply (count_of_rows _ Supabase.execute_query
           (mk_World app {| Supabase.tables := ∅; Supabase.faults := [] |})
           (mk_World app {| Supabase.tables := ∅; Supabase.faults := [] |})).
  reflexivity.
Defined.

(** ** What POST /test answers with *)

(** X5. The response of POST /test is made of the client's answer alone:
    two requests with different bodies whose inserts get the same answer
    get the same response.  The handler does not put the request body into
    the response by itself. *)
Theorem post_response_from_client :
  forall (Db1 Db2 : Type)
         (execute1 : query -> Db1 -> outcome pyexn APIResponse * Db1)
         (execute2 : query -> Db2 -> outcome pyexn APIResponse * Db2)
         (record1 record2 : dict) (w1 : World Db1) (w2 : World Db2),
    fst (execute1 (Insert "test_records" record1) (database w1))
      = fst (execute2 (Insert "test_records" record2) (database w2)) ->
    fst (add_test_record execute1 record1 w1)
      = fst (add_test_record execute2 record2 w2).
Proof.
  intros Db1 Db2 execute1 execute2 record1 record2 w1 w2.
  rewrite !add_test_record_run.
  destruct (execute1 _ _) as [o1 d1], (execute2 _ _) as [o2 d2]; cbn.
  intros ->. now destruct o2.
Qed.

Lemma post_response_from_client_witness :
  fst (add_test_record Supabase.execute_query row_a world_down)
    = fst (add_test_record Supabase.execute_query row_b world_down).
Proof.
  apply (post_response_from_client _ _
           Supabase.execute_query Supabase.execute_query
           row_a row_b world_down world_down).
  reflexivity.
Defined.

(** ** GET /test writes nothing of its own *)

(** X6. When the client's select leaves the database as it is, GET /test
    leaves the whole world as it is, so that asking again gives the same
    response again. *)
Theorem get_is_repeatable :
  forall (Db : Type)
         (execute_query : query -> Db -> outcome pyexn APIResponse * Db)
         (w : World Db),
    snd (execute_query (Select "test_records" "*") (database w))
      = database w ->
    snd (get_test_records execute_query w) = w
    /\ get_test_records execute_query
         (snd (get_test_records execute_query w))
       = get_test_records execute_query w.
Proof.
  intros Db execute_query w Hsel.
  assert (Hw : snd (get_test_records execute_query w) = w).
  { rewrite get_test_records_run.
    destruct (execute_query _ _) as [[resp | e] db']; cbn in *;
      subst db'; now destruct w. }
  split; [exact Hw | now rewrite Hw].
Qed.

Lemma get_is_repeatable_witness :
  snd (get_test_records Supabase.execute_query world_ok) = world_ok
  /\ get_test_records Supabase.execute_query
       (snd (get_test_records Supabase.execute_query world_ok))
     = get_test_records Supabase.execute_query world_ok.
Proof.
  apply (get_is_repeatable _ Supabase.execute_query world_ok).
  reflexivity.
Defined.

(** ** The route table *)



